(** * Dataprocessing_script.py: synthetic insurance data and two hypothesis tests

    A shallow embedding of [scripts/Dataprocessing_script.py].

    The script is Python over numpy, pandas and scipy.  What the script itself
    does is embedded function by function; the library calls it makes are
    embedded by their contract:

    - numpy's global random state is an interface ([RandomState]) with the
      laws of [np.random.choice] and [np.random.rand] the script relies on,
      threaded through the generator as explicit state;
    - a pandas [DataFrame] with the columns Province, Gender, Claimed is the
      ordered list of its rows, Claimed holding Python integers with the
      dtype pandas infers for them; [pd.crosstab] is the table of counts
      over the sorted distinct labels;
    - scipy's [chi2_contingency] and [ttest_ind] are embedded up to the
      checks and the type error that decide whether they return; the
      floating-point statistics they return are kept as symbolic values
      ([pyfloat]).

    Python exceptions are values of [exn]; a call either returns [Ok] or
    raises. *)

From Stdlib Require Import String Ascii List Bool ZArith QArith Qabs Lia Permutation.
From Stdlib Require Import Sorted OrderedTypeEx.
Import ListNotations.

Local Open Scope Z_scope.

(** ** Python results and the state-and-exception monad *)

Inductive exn : Type :=
| ValueError
| KeyError
| TypeError
| OverflowError
| MemoryError.

Inductive result (A : Type) : Type :=
| Ok (a : A)
| Raise (e : exn).

Arguments Ok {A} a.
Arguments Raise {A} e.

Definition is_ok {A} (r : result A) : bool :=
  match r with Ok _ => true | Raise _ => false end.

(** A computation over a mutable state [S]: it returns or raises, and leaves
    a state behind in both cases. *)
Definition M (S A : Type) : Type := S -> result A * S.

Definition ret {S A} (a : A) : M S A := fun s => (Ok a, s).

Definition raise {S A} (e : exn) : M S A := fun s => (Raise e, s).

Definition bind {S A B} (m : M S A) (f : A -> M S B) : M S B :=
  fun s =>
    match m s with
    | (Ok a, s') => f a s'
    | (Raise e, s') => (Raise e, s')
    end.

Definition lift {S A} (r : result A) : M S A := fun s => (r, s).

Declare Scope py_scope.
Delimit Scope py_scope with py.
Notation "x <- m ;; k" := (bind m (fun x => k))
  (at level 100, m at next level, right associativity) : py_scope.
Notation "m ;;; k" := (bind m (fun _ => k))
  (at level 100, right associativity) : py_scope.
Local Open Scope py_scope.

(** [[f(x) for x in xs]] where [f] has effects: left to right. *)
Fixpoint list_comprehension {S A B} (f : A -> M S B) (xs : list A) : M S (list B) :=
  match xs with
  | [] => ret []
  | x :: xs' =>
      y <- f x ;;
      ys <- list_comprehension f xs' ;;
      ret (y :: ys)
  end.

(** ** Floats

    The claim rates are Python float literals and [np.random.rand()] returns
    a double in [[0, 1)]; every finite double is a rational, and [<] on
    doubles is [<] on those rationals. *)

Definition Qltb (x y : Q) : bool :=
  (Qnum x * QDen y <? Qnum y * QDen x)%Z.

(** The doubles denoted by the literals [0.1], [0.9], [0.2] and [0.6]. *)
Definition double_0_1 : Q := 3602879701896397 # 36028797018963968.
Definition double_0_9 : Q := 8106479329266893 # 9007199254740992.
Definition double_0_2 : Q := 3602879701896397 # 18014398509481984.
Definition double_0_6 : Q := 5404319552844595 # 9007199254740992.

(** ** numpy's global random state

    The generator itself (MT19937 and the sampling built on it) is not part
    of the script; the script depends on what the three calls below return.
    [num_records] is a Python integer of any size, and numpy accepts only
    some of them as a size: below [-2^63] the conversion to a C integer
    overflows, a negative size is refused, and an array of [2^62] or more
    elements is never allocated.  How large an array can be allocated below
    that depends on the machine: [max_array_size] is a size up to which the
    arrays of the script fit in memory. *)

Definition int64_min : Z := -9223372036854775808.

Definition array_size_limit : Z := 4611686018427387904.

Class RandomState : Type := {
  rng : Type;
  (** [np.random.seed(s)]: the state it installs. *)
  seed : Z -> rng;
  (** [np.random.choice(a, size)]. *)
  choice : forall {A : Type}, list A -> Z -> M rng (list A);
  (** [np.random.rand()]. *)
  rand : rng -> Q * rng;
  max_array_size : Z;
  (** "Python int too large to convert to C long". *)
  choice_below_int64 :
    forall A (a : list A) size st,
      size < int64_min -> fst (choice a size st) = Raise OverflowError;
  (** "negative dimensions are not allowed". *)
  choice_negative :
    forall A (a : list A) size st,
      int64_min <= size < 0 -> fst (choice a size st) = Raise ValueError;
  (** Up to [max_array_size] elements are drawn from a non-empty [a]. *)
  choice_returns :
    forall A (a : list A) size st,
      a <> [] -> 0 <= size <= max_array_size ->
      is_ok (fst (choice a size st)) = true;
  (** Whenever the call returns, it returns [size] elements of [a], and
      [size] is a size numpy can allocate. *)
  choice_result :
    forall A (a : list A) size st l,
      fst (choice a size st) = Ok l ->
      0 <= size < array_size_limit /\
      length l = Z.to_nat size /\
      Forall (fun x => In x a) l;
  rand_unit_interval :
    forall st, (0 <= fst (rand st))%Q /\ (fst (rand st) < 1)%Q
}.

(** ** pandas: the data frame of the script *)

Record row : Type := mkRow {
  Province : string;
  Gender : string;
  Claimed : Z
}.

Definition DataFrame : Type := list row.

Fixpoint zip_rows (ps gs : list string) (cs : list Z) : DataFrame :=
  match ps, gs, cs with
  | p :: ps', g :: gs', c :: cs' => mkRow p g c :: zip_rows ps' gs' cs'
  | _, _, _ => []
  end.

(** [pd.DataFrame({'Province': ps, 'Gender': gs, 'Claimed': cs})]: the
    columns must have one length. *)
Definition pd_DataFrame (ps gs : list string) (cs : list Z) : result DataFrame :=
  if (length ps =? length gs)%nat && (length gs =? length cs)%nat
  then Ok (zip_rows ps gs cs)
  else Raise ValueError.

(** A Python [dict] with string keys, in insertion order. *)
Definition dict (V : Type) : Type := list (string * V).

Fixpoint dict_getitem {V} (d : dict V) (k : string) : result V :=
  match d with
  | [] => Raise KeyError
  | (k', v) :: d' => if (k' =? k)%string then Ok v else dict_getitem d' k
  end.

(** ** generate_insurance_data *)

Definition provinces : list string :=
  ["Province_A"; "Province_B"; "Province_C"]%string.

Definition genders : list string := ["Male"; "Female"]%string.

Definition claim_rates_province : dict Q :=
  [("Province_A", double_0_1); ("Province_B", double_0_9);
   ("Province_C", double_0_2)]%string.

Definition claim_rates_gender : dict Q :=
  [("Male", double_0_6); ("Female", double_0_2)]%string.

Section Generator.
Context {R : RandomState}.

Definition np_random_seed (s : Z) : M rng unit := fun _ => (Ok tt, seed s).

Definition np_random_rand : M rng Q := fun st => (Ok (fst (rand st)), snd (rand st)).

(** The element of the comprehension on line 41:
    [1 if np.random.rand() < claim_rates_gender[gender] else 0]. *)
Definition draw_claim (rates_gender : dict Q) (gender : string) : M rng Z :=
  u <- np_random_rand ;;
  rate <- lift (dict_getitem rates_gender gender) ;;
  ret (if Qltb u rate then 1 else 0).

(** The body of the function, with its two local tables as parameters. *)
Definition generate_insurance_data_with
    (rates_province rates_gender : dict Q) (num_records : Z) : M rng DataFrame :=
  np_random_seed 42 ;;;
  province_choices <- choice provinces num_records ;;
  gender_choices <- choice genders num_records ;;
  claims <- list_comprehension (draw_claim rates_gender) gender_choices ;;
  lift (pd_DataFrame province_choices gender_choices claims).

Definition generate_insurance_data (num_records : Z) : M rng DataFrame :=
  generate_insurance_data_with claim_rates_province claim_rates_gender num_records.

(** The next [n] values of [np.random.rand()] from a state. *)
Fixpoint uniforms (n : nat) (st : rng) : list Q :=
  match n with
  | O => []
  | S n' => fst (rand st) :: uniforms n' (snd (rand st))
  end.

(** What the comprehension on line 41 computes from the drawn genders and
    the uniform draws that follow them. *)
Fixpoint claims_from (gs : list string) (us : list Q) : list Z :=
  match gs, us with
  | g :: gs', u :: us' =>
      match dict_getitem claim_rates_gender g with
      | Ok rate => (if Qltb u rate then 1 else 0) :: claims_from gs' us'
      | Raise _ => []
      end
  | _, _ => []
  end.

(** The state of the random source when the claims are drawn: seeded, then
    advanced by the two calls of [np.random.choice]. *)
Definition state_before_claims (num_records : Z) : rng :=
  snd (choice genders num_records
         (snd (choice provinces num_records (seed 42)))).

End Generator.

(** ** pandas: reading a frame, and the contingency table *)

(** The caller's data frame is a mutable object; the two tests receive a
    reference to it.  They are computations over that object. *)

(** [data[col]]. *)
Definition getitem {A} (col : row -> A) : M DataFrame (list A) :=
  fun data => (Ok (map col data), data).

(** [series == value] on a column of strings. *)
Definition series_eq (s : list string) (v : string) : list bool :=
  map (fun x => (x =? v)%string) s.

(** [frame[mask]] for a boolean mask taken from a column of the same frame:
    a new frame with the rows where the mask is true. *)
Definition boolean_index (mask : list bool) (frame : DataFrame) : DataFrame :=
  map snd (filter fst (combine mask frame)).

(** Sorted distinct labels, as pandas orders the axes of a cross-tabulation. *)
Section SortedUnique.
Context {A : Type} (eq_dec : forall x y : A, {x = y} + {x <> y})
        (leb : A -> A -> bool).

Fixpoint insert_sorted (x : A) (l : list A) : list A :=
  match l with
  | [] => [x]
  | y :: l' => if leb x y then x :: l else y :: insert_sorted x l'
  end.

Definition sort_labels (l : list A) : list A := fold_right insert_sorted [] l.

Definition sorted_unique (l : list A) : list A := sort_labels (nodup eq_dec l).
End SortedUnique.

Definition countb {A} (f : A -> bool) (l : list A) : Z :=
  Z.of_nat (length (filter f l)).

Record contingency : Type := mkContingency {
  index : list string;
  columns : list Z;
  values : list (list Z)
}.

(** [pd.crosstab(rows, cols)] for two columns of one frame: a row per distinct
    value of [rows], a column per distinct value of [cols], each cell the
    number of positions holding that pair. *)
Definition crosstab (rows : list string) (cols : list Z) : contingency :=
  let idx := sorted_unique string_dec String.leb rows in
  let cls := sorted_unique Z.eq_dec Z.leb cols in
  mkContingency idx cls
    (map (fun p =>
            map (fun c =>
                   countb (fun pc => (fst pc =? p)%string && (snd pc =? c))
                          (combine rows cols))
                cls)
         idx).

(** ** scipy.stats *)

(** The floating-point statistics are not computed here: a value says which
    scipy computation produced it. *)
Inductive pyfloat : Type :=
| Float (q : Q)
| NaN
| Chi2Statistic (observed : list (list Z))
| Chi2PValue (observed : list (list Z))
| WelchT (a b : list Z)
| WelchPValue (a b : list Z).

Definition sumZ (l : list Z) : Z := fold_right Z.add 0 l.

Definition nrows (a : list (list Z)) : nat := length a.

Definition ncols (a : list (list Z)) : nat :=
  match a with
  | [] => O
  | r :: _ => length r
  end.

Definition row_sums (a : list (list Z)) : list Z := map sumZ a.

Definition col_sums (a : list (list Z)) : list Z :=
  map (fun j => sumZ (map (fun r => nth j r 0) a)) (seq 0 (ncols a)).

Definition total (a : list (list Z)) : Z := sumZ (row_sums a).

(** Float division of two integers; [None] is the NaN of [0/0]. *)
Definition fdiv (a b : Z) : option Q :=
  if b =? 0 then None else Some (inject_Z a / inject_Z b)%Q.

(** [scipy.stats.contingency.expected_freq]: the product of the margins over
    the total. *)
Definition expected_freq (observed : list (list Z)) : list (list (option Q)) :=
  map (fun rs => map (fun cs => fdiv (rs * cs) (total observed)) (col_sums observed))
      (row_sums observed).

Definition is_zero (x : option Q) : bool :=
  match x with
  | Some q => Qeq_bool q 0
  | None => false
  end.

(** [chi2_contingency(observed)] on a two-dimensional table: three argument
    checks, then the statistic. *)
Definition chi2_contingency (observed : list (list Z))
  : result (pyfloat * pyfloat * Z * list (list (option Q))) :=
  if existsb (existsb (fun x => x <? 0)) observed then Raise ValueError
  else if (nrows observed * ncols observed =? 0)%nat then Raise ValueError
  else
    let expected := expected_freq observed in
    if existsb (existsb is_zero) expected then Raise ValueError
    else
      let size := Z.of_nat (nrows observed * ncols observed) in
      let dof := size - Z.of_nat (nrows observed + ncols observed) + 2 - 1 in
      if dof =? 0 then Ok (Float 0, Float 1, dof, expected)
      else Ok (Chi2Statistic observed, Chi2PValue observed, dof, expected).

(** The dtype pandas gives a column of Python integers: [int64] when all
    fit, [uint64] when all are non-negative and fit in 64 bits unsigned,
    and otherwise [object], a column of Python objects. *)
Inductive dtype : Type :=
| int64
| uint64
| object.

Definition in_int64 (z : Z) : bool :=
  (-9223372036854775808 <=? z) && (z <? 9223372036854775808).

Definition in_uint64 (z : Z) : bool :=
  (0 <=? z) && (z <? 18446744073709551616).

Definition infer_dtype (l : list Z) : dtype :=
  if forallb in_int64 l then int64
  else if forallb in_uint64 l then uint64
  else object.

Record Series : Type := mkSeries {
  series_dtype : dtype;
  series_values : list Z
}.

Definition is_object (d : dtype) : bool :=
  match d with object => true | _ => false end.

(** [ttest_ind(a, b, equal_var=False)]: an empty sample gives NaN for both
    outputs; two non-empty numeric samples give the Welch statistic and its
    p-value; the arithmetic on an object-typed sample raises TypeError. *)
Definition ttest_ind (a b : Series) : result (pyfloat * pyfloat) :=
  match series_values a, series_values b with
  | [], _ | _, [] => Ok (NaN, NaN)
  | _, _ =>
      if is_object (series_dtype a) || is_object (series_dtype b)
      then Raise TypeError
      else Ok (WelchT (series_values a) (series_values b),
               WelchPValue (series_values a) (series_values b))
  end.

(** ** preprocessing_script and gender_analysis *)

Definition preprocessing_script : M DataFrame (pyfloat * pyfloat * contingency) :=
  province <- getitem Province ;;
  claimed <- getitem Claimed ;;
  let contingency_table := crosstab province claimed in
  r <- lift (chi2_contingency (values contingency_table)) ;;
  let '(chi2, p, dof, expected) := r in
  ret (chi2, p, contingency_table).

(** [data[mask]['Claimed']]: the Claimed values of the selected rows, as a
    series that keeps the dtype of the Claimed column of [data]. *)
Definition getitem_mask_claimed (mask : list bool) : M DataFrame Series :=
  fun data =>
    (Ok (mkSeries (infer_dtype (map Claimed data))
                  (map Claimed (boolean_index mask data))),
     data).

Definition gender_analysis : M DataFrame (pyfloat * pyfloat) :=
  gender <- getitem Gender ;;
  male_claims <- getitem_mask_claimed (series_eq gender "Male") ;;
  gender' <- getitem Gender ;;
  female_claims <- getitem_mask_claimed (series_eq gender' "Female") ;;
  r <- lift (ttest_ind male_claims female_claims) ;;
  let '(t_stat, p_value) := r in
  ret (t_stat, p_value).

(** The value of [data[data['Gender'] == g]['Claimed']]. *)
Definition claims_of_gender (data : DataFrame) (g : string) : list Z :=
  map Claimed (boolean_index (series_eq (map Gender data) g) data).

(** The two samples [gender_analysis] hands to [ttest_ind]. *)
Definition sample_of_gender (data : DataFrame) (g : string) : Series :=
  mkSeries (infer_dtype (map Claimed data)) (claims_of_gender data g).

(** The Claimed column holds 64-bit integers. *)
Definition claimed_int64 (data : DataFrame) : Prop :=
  Forall (fun r => in_int64 (Claimed r) = true) data.

(** A gender label the partition of [gender_analysis] does not select. *)
Definition other_gender (r : row) : bool :=
  negb (Gender r =? "Male")%string && negb (Gender r =? "Female")%string.

(** ** A concrete random state

    A linear congruential generator that meets [RandomState]; the generator
    is run on it wherever a concrete run is needed. *)

Definition lcg_modulus : Z := 2147483648.

Definition lcg_next (x : Z) : Z := (1103515245 * x + 12345) mod lcg_modulus.

Fixpoint lcg_draw {A} (d : A) (a : list A) (n : nat) (x : Z) : list A * Z :=
  match n with
  | O => ([], x)
  | S n' =>
      let x' := lcg_next x in
      let rest := lcg_draw d a n' x' in
      (nth (Z.to_nat (x' mod Z.of_nat (length a))) a d :: fst rest, snd rest)
  end.

Definition lcg_max_array_size : Z := 1048576.

Definition lcg_choice {A} (a : list A) (size : Z) : M Z (list A) :=
  fun x =>
    if size <? int64_min then (Raise OverflowError, x)
    else if size <? 0 then (Raise ValueError, x)
    else if array_size_limit <=? size then (Raise ValueError, x)
    else if lcg_max_array_size <? size then (Raise MemoryError, x)
    else
      match a with
      | [] => ((if size =? 0 then Ok [] else Raise ValueError), x)
      | d :: _ => let r := lcg_draw d a (Z.to_nat size) x in (Ok (fst r), snd r)
      end.

Definition lcg_rand (x : Z) : Q * Z := (lcg_next x # 2147483648, lcg_next x).

(** * Properties *)

(** ** The monad *)

Lemma bind_ok {S A B} (m : M S A) (f : A -> M S B) s a :
  fst (m s) = Ok a -> bind m f s = f a (snd (m s)).
Proof. unfold bind. destruct (m s) as [r s']. simpl. now intros ->. Qed.

Lemma bind_raise {S A B} (m : M S A) (f : A -> M S B) s e :
  fst (m s) = Raise e -> fst (bind m f s) = Raise e.
Proof. unfold bind. destruct (m s) as [r s']. simpl. now intros ->. Qed.

Lemma Qltb_lt x y : Qltb x y = true <-> (x < y)%Q.
Proof. unfold Qltb, Qlt. apply Z.ltb_lt. Qed.

(** The rationals standing for the two gender rates are the doubles nearest
    to 0.6 and 0.2: each is within half a unit in the last place of its
    decimal literal. *)
Lemma gender_rate_literals :
  (Qabs (double_0_6 - (6 # 10)) <= 1 # 18014398509481984)%Q /\
  (Qabs (double_0_2 - (2 # 10)) <= 1 # 72057594037927936)%Q.
Proof. split; vm_compute; discriminate. Qed.

(** ** The linear congruential generator meets the interface *)

Lemma lcg_next_range x : 0 <= lcg_next x < lcg_modulus.
Proof. unfold lcg_next, lcg_modulus. apply Z.mod_pos_bound. lia. Qed.

Lemma lcg_draw_length {A} (d : A) a n x : length (fst (lcg_draw d a n x)) = n.
Proof.
  revert x. induction n as [|n IH]; intros x; simpl; [reflexivity|].
  now rewrite IH.
Qed.

Lemma lcg_draw_In {A} (d : A) a n x :
  a <> [] -> Forall (fun y => In y a) (fst (lcg_draw d a n x)).
Proof.
  intros Ha. revert x. induction n as [|n IH]; intros x; simpl.
  - constructor.
  - constructor; [|apply IH].
    apply nth_In.
    assert (0 < Z.of_nat (length a)) by (destruct a; simpl; [congruence|lia]).
    pose proof (Z.mod_pos_bound (lcg_next x) (Z.of_nat (length a)) ltac:(lia)).
    lia.
Qed.

Lemma lcg_choice_below_int64 {A} (a : list A) size st :
  size < int64_min -> fst (lcg_choice a size st) = Raise OverflowError.
Proof.
  intros H. unfold lcg_choice.
  destruct (Z.ltb_spec size int64_min); [reflexivity|lia].
Qed.

Lemma lcg_choice_negative {A} (a : list A) size st :
  int64_min <= size < 0 -> fst (lcg_choice a size st) = Raise ValueError.
Proof.
  intros H. unfold lcg_choice.
  destruct (Z.ltb_spec size int64_min); [lia|].
  destruct (Z.ltb_spec size 0); [reflexivity|lia].
Qed.

Lemma lcg_choice_returns {A} (a : list A) size st :
  a <> [] -> 0 <= size <= lcg_max_array_size ->
  is_ok (fst (lcg_choice a size st)) = true.
Proof.
  intros Ha H. unfold lcg_choice, lcg_max_array_size, array_size_limit, int64_min in *.
  destruct (Z.ltb_spec size (-9223372036854775808)); [lia|].
  destruct (Z.ltb_spec size 0); [lia|].
  destruct (Z.leb_spec 4611686018427387904 size); [lia|].
  destruct (Z.ltb_spec 1048576 size); [lia|].
  destruct a as [|d a']; [congruence|]. reflexivity.
Qed.

Lemma lcg_choice_result {A} (a : list A) size st l :
  fst (lcg_choice a size st) = Ok l ->
  0 <= size < array_size_limit /\
  length l = Z.to_nat size /\
  Forall (fun x => In x a) l.
Proof.
  unfold lcg_choice.
  destruct (Z.ltb_spec size int64_min); [discriminate|].
  destruct (Z.ltb_spec size 0); [discriminate|].
  destruct (Z.leb_spec array_size_limit size); [discriminate|].
  destruct (Z.ltb_spec lcg_max_array_size size); [discriminate|].
  destruct a as [|d a']; simpl.
  - destruct (Z.eqb_spec size 0) as [->|_]; [|discriminate].
    intros E. injection E as <-. repeat split; try lia. constructor.
  - intros E. injection E as <-. split; [lia|]. split.
    + apply lcg_draw_length.
    + apply (lcg_draw_In d (d :: a')). discriminate.
Qed.

Lemma lcg_rand_unit_interval st : (0 <= fst (lcg_rand st))%Q /\ (fst (lcg_rand st) < 1)%Q.
Proof.
  unfold lcg_rand. simpl. pose proof (lcg_next_range st) as Hn.
  unfold lcg_modulus in Hn. unfold Qle, Qlt. simpl. lia.
Qed.

Definition lcg_random_state : RandomState :=
  Build_RandomState Z (fun s => s mod lcg_modulus) (@lcg_choice) lcg_rand
    lcg_max_array_size
    (@lcg_choice_below_int64) (@lcg_choice_negative) (@lcg_choice_returns)
    (@lcg_choice_result) lcg_rand_unit_interval.

(** ** The generator *)

Lemma zip_rows_length ps gs cs :
  length ps = length gs -> length cs = length gs ->
  length (zip_rows ps gs cs) = length gs.
Proof.
  revert ps cs. induction gs as [|g gs IH]; intros [|p ps] [|c cs]; simpl;
    try discriminate; try reflexivity.
  intros Hp Hc. f_equal. apply IH; congruence.
Qed.

Lemma zip_rows_labels (P G : string -> Prop) ps gs cs :
  Forall P ps -> Forall G gs ->
  Forall (fun r => P (Province r) /\ G (Gender r)) (zip_rows ps gs cs).
Proof.
  intros Hp. revert gs cs. induction Hp as [|p ps Hp0 Hp IH]; intros gs cs Hg.
  - constructor.
  - destruct Hg as [|g gs Hg0 Hg]; [constructor|].
    destruct cs as [|c cs]; simpl; [constructor|].
    constructor; [now split|]. now apply IH.
Qed.

Section GeneratorFacts.
Context {R : RandomState}.

Lemma uniforms_length n st : length (uniforms n st) = n.
Proof. revert st. induction n as [|n IH]; intros st; simpl; congruence. Qed.

Lemma uniforms_unit_interval n st :
  Forall (fun u => (0 <= u)%Q /\ (u < 1)%Q) (uniforms n st).
Proof.
  revert st. induction n as [|n IH]; intros st; simpl; constructor.
  - apply rand_unit_interval.
  - apply IH.
Qed.

Lemma gender_rate_defined g :
  In g genders -> exists rate, dict_getitem claim_rates_gender g = Ok rate.
Proof.
  intros [<-|[<-|[]]]; simpl; eauto.
Qed.

Lemma claims_from_length gs us :
  Forall (fun g => In g genders) gs -> length us = length gs ->
  length (claims_from gs us) = length gs.
Proof.
  intros Hg. revert us.
  induction Hg as [|g gs Hg0 Hg IH]; intros [|u us]; cbn [claims_from length];
    try discriminate; try reflexivity.
  intros Hl. destruct (gender_rate_defined g Hg0) as [rate Hr].
  rewrite Hr. simpl. f_equal. apply IH. congruence.
Qed.

Lemma draw_claim_run g rate st :
  dict_getitem claim_rates_gender g = Ok rate ->
  draw_claim claim_rates_gender g st
  = (Ok (if Qltb (fst (rand st)) rate then 1 else 0), snd (rand st)).
Proof.
  intros Hr. unfold draw_claim, bind, np_random_rand, lift, ret.
  now rewrite Hr.
Qed.

Lemma comprehension_claims gs st :
  Forall (fun g => In g genders) gs ->
  fst (list_comprehension (draw_claim claim_rates_gender) gs st)
  = Ok (claims_from gs (uniforms (length gs) st)).
Proof.
  intros Hg. revert st. induction Hg as [|g gs Hg0 Hg IH]; intros st.
  - reflexivity.
  - destruct (gender_rate_defined g Hg0) as [rate Hr].
    cbn [list_comprehension length uniforms claims_from].
    rewrite Hr. unfold bind at 1. rewrite (draw_claim_run g rate st Hr).
    erewrite bind_ok by apply IH. reflexivity.
Qed.

End GeneratorFacts.

Section GeneratorRuns.
Context {R : RandomState}.

Lemma choice_draws {A} (a : list A) size st :
  a <> [] -> 0 <= size <= max_array_size ->
  exists l, fst (choice a size st) = Ok l /\
            length l = Z.to_nat size /\
            Forall (fun x => In x a) l.
Proof.
  intros Ha Hs. pose proof (choice_returns _ a size st Ha Hs) as Hok.
  destruct (fst (choice a size st)) as [l|e] eqn:E; [|discriminate].
  exists l. split; [reflexivity|]. now apply (choice_result _ a size st l).
Qed.

Lemma generate_below_int64 rp rg N st :
  N < int64_min ->
  fst (generate_insurance_data_with rp rg N st) = Raise OverflowError.
Proof.
  intros HN. unfold generate_insurance_data_with.
  unfold bind at 1. unfold np_random_seed.
  apply bind_raise. now apply choice_below_int64.
Qed.

Lemma generate_negative rp rg N st :
  int64_min <= N < 0 ->
  fst (generate_insurance_data_with rp rg N st) = Raise ValueError.
Proof.
  intros HN. unfold generate_insurance_data_with.
  unfold bind at 1. unfold np_random_seed.
  apply bind_raise. now apply choice_negative.
Qed.

Lemma generate_of_choices rp N st ps gs :
  fst (choice provinces N (seed 42)) = Ok ps ->
  fst (choice genders N (snd (choice provinces N (seed 42)))) = Ok gs ->
  (0 <= N < array_size_limit) /\
  length ps = Z.to_nat N /\ length gs = Z.to_nat N /\
  Forall (fun p => In p provinces) ps /\
  Forall (fun g => In g genders) gs /\
  fst (generate_insurance_data_with rp claim_rates_gender N st)
  = Ok (zip_rows ps gs
          (claims_from gs (uniforms (length gs) (state_before_claims N)))).
Proof.
  intros Hps Hgs.
  destruct (choice_result _ _ _ _ _ Hps) as (HN & Hlp & Hinp).
  destruct (choice_result _ _ _ _ _ Hgs) as (_ & Hlg & Hing).
  repeat split; try assumption; try lia.
  unfold generate_insurance_data_with.
  unfold bind at 1. unfold np_random_seed.
  rewrite (bind_ok _ _ _ ps Hps).
  rewrite (bind_ok _ _ _ gs Hgs).
  rewrite (bind_ok _ _ _ _ (comprehension_claims gs _ Hing)).
  unfold lift, pd_DataFrame. simpl fst.
  rewrite claims_from_length by (auto; apply uniforms_length).
  rewrite Hlp, Hlg, !Nat.eqb_refl. reflexivity.
Qed.

Lemma generate_run rp N st :
  0 <= N <= max_array_size ->
  exists ps gs,
    length ps = Z.to_nat N /\ length gs = Z.to_nat N /\
    Forall (fun p => In p provinces) ps /\
    Forall (fun g => In g genders) gs /\
    fst (generate_insurance_data_with rp claim_rates_gender N st)
    = Ok (zip_rows ps gs
            (claims_from gs (uniforms (length gs) (state_before_claims N)))).
Proof.
  intros HN.
  destruct (choice_draws provinces N (seed 42) ltac:(discriminate) HN)
    as (ps & Hps & _).
  destruct (choice_draws genders N (snd (choice provinces N (seed 42)))
              ltac:(discriminate) HN) as (gs & Hgs & _).
  exists ps, gs.
  now destruct (generate_of_choices rp N st ps gs Hps Hgs) as (_ & H).
Qed.

(** A run that returns went through two calls of [np.random.choice] that
    returned. *)
Lemma generate_returned rp N st df :
  fst (generate_insurance_data_with rp claim_rates_gender N st) = Ok df ->
  exists ps gs,
    (0 <= N < array_size_limit) /\
    length ps = Z.to_nat N /\ length gs = Z.to_nat N /\
    Forall (fun p => In p provinces) ps /\
    Forall (fun g => In g genders) gs /\
    df = zip_rows ps gs
           (claims_from gs (uniforms (length gs) (state_before_claims N))).
Proof.
  intros Hdf.
  destruct (fst (choice provinces N (seed 42))) as [ps|e] eqn:Hps.
  2:{ exfalso. revert Hdf. unfold generate_insurance_data_with.
      unfold bind at 1. unfold np_random_seed.
      rewrite (bind_raise _ _ _ e Hps). discriminate. }
  destruct (fst (choice genders N (snd (choice provinces N (seed 42)))))
    as [gs|e] eqn:Hgs.
  2:{ exfalso. revert Hdf. unfold generate_insurance_data_with.
      unfold bind at 1. unfold np_random_seed.
      rewrite (bind_ok _ _ _ ps Hps).
      rewrite (bind_raise _ _ _ e Hgs). discriminate. }
  destruct (generate_of_choices rp N st ps gs Hps Hgs)
    as (HN & Hlp & Hlg & Hinp & Hing & Hrun).
  exists ps, gs. rewrite Hrun in Hdf. injection Hdf as <-.
  repeat split; try assumption; lia.
Qed.

Lemma generate_returned_length rp N st df :
  fst (generate_insurance_data_with rp claim_rates_gender N st) = Ok df ->
  Z.of_nat (length df) = N.
Proof.
  intros Hdf.
  destruct (generate_returned rp N st df Hdf)
    as (ps & gs & HN & Hlp & Hlg & _ & Hing & ->).
  rewrite zip_rows_length;
    [ lia | congruence
    | rewrite claims_from_length; auto using uniforms_length ].
Qed.

Lemma generate_too_large rp N st :
  array_size_limit <= N ->
  is_ok (fst (generate_insurance_data_with rp claim_rates_gender N st)) = false.
Proof.
  intros HN.
  destruct (fst (generate_insurance_data_with rp claim_rates_gender N st))
    as [df|e] eqn:E; [|reflexivity].
  destruct (generate_returned rp N st df E) as (ps & gs & Hb & _). lia.
Qed.

Lemma zip_rows_bernoulli ps gs us :
  length ps = length gs -> length us = length gs ->
  Forall (fun g => In g genders) gs ->
  Forall (fun u => (0 <= u)%Q /\ (u < 1)%Q) us ->
  Forall2 (fun r u =>
             ((0 <= u)%Q /\ (u < 1)%Q) /\
             exists rate,
               dict_getitem claim_rates_gender (Gender r) = Ok rate /\
               Claimed r = if Qltb u rate then 1 else 0)
          (zip_rows ps gs (claims_from gs us)) us.
Proof.
  intros Hp Hu Hg. revert ps us Hp Hu.
  induction Hg as [|g gs Hg0 Hg IH]; intros ps us Hp Hu Hr.
  - destruct us; [|discriminate]. destruct ps; constructor.
  - destruct ps as [|p ps]; [discriminate|].
    destruct us as [|u us]; [discriminate|].
    destruct (gender_rate_defined g Hg0) as [rate Hrate].
    cbn [claims_from]. rewrite Hrate. cbn [zip_rows].
    inversion Hr as [|u' us' Hu0 Hus]; subst.
    constructor.
    + split; [exact Hu0|]. exists rate. simpl. now split.
    + apply IH; simpl in *; congruence || assumption.
Qed.

End GeneratorRuns.

(** C1. In every data set the generator returns, the Claimed field of the
    i-th record is 1 exactly when the i-th uniform draw (a value in [0, 1))
    is below the rate that [claim_rates_gender] gives for that record's
    Gender (the doubles 0.6 for Male and 0.2 for Female), and 0 otherwise;
    the Province-indexed table can be replaced by any other table without
    changing the run. *)
Theorem claimed_decided_by_gender {R : RandomState} (N : Z) (st : rng) (df : DataFrame) :
  fst (generate_insurance_data N st) = Ok df ->
  Forall2 (fun r u =>
             ((0 <= u)%Q /\ (u < 1)%Q) /\
             exists rate,
               dict_getitem claim_rates_gender (Gender r) = Ok rate /\
               Claimed r = if Qltb u rate then 1 else 0)
          df (uniforms (length df) (state_before_claims N))
  /\ dict_getitem claim_rates_gender "Male" = Ok double_0_6
  /\ dict_getitem claim_rates_gender "Female" = Ok double_0_2
  /\ forall rates_province,
       generate_insurance_data_with rates_province claim_rates_gender N st
       = generate_insurance_data N st.
Proof.
  intros Hdf.
  split; [|repeat split].
  unfold generate_insurance_data in Hdf.
  destruct (generate_returned _ N st df Hdf)
    as (ps & gs & HN & Hlp & Hlg & _ & Hing & ->).
  rewrite zip_rows_length;
    [| congruence
     | rewrite claims_from_length; auto using uniforms_length ].
  apply zip_rows_bernoulli.
  - congruence.
  - apply uniforms_length.
  - assumption.
  - apply uniforms_unit_interval.
Qed.

Lemma claimed_decided_by_gender_witness :
  fst (generate_insurance_data (R := lcg_random_state) 3 0)
  = Ok [mkRow "Province_A" "Male" 1; mkRow "Province_C" "Female" 0;
        mkRow "Province_C" "Male" 0]%string
  /\ Forall2 (fun r u =>
                ((0 <= u)%Q /\ (u < 1)%Q) /\
                exists rate,
                  dict_getitem claim_rates_gender (Gender r) = Ok rate /\
                  Claimed r = if Qltb u rate then 1 else 0)
             [mkRow "Province_A" "Male" 1; mkRow "Province_C" "Female" 0;
              mkRow "Province_C" "Male" 0]%string
             (uniforms 3 (state_before_claims (R := lcg_random_state) 3)).
Proof.
  split; [vm_compute; reflexivity|].
  apply (claimed_decided_by_gender (R := lcg_random_state) 3 0).
  vm_compute. reflexivity.
Defined.

(** C2, as the claim states it, fails at a record count of 2^62: numpy
    refuses an array of that size and the call raises ValueError. *)
Lemma generate_too_many_records_fails :
  fst (generate_insurance_data (R := lcg_random_state) 4611686018427387904 7%Z)
  = Raise ValueError.
Proof. vm_compute. reflexivity. Qed.

(** C2 (amended). For every record count N >= 1 up to the largest array the
    machine allocates (a size below 2^62), the generator returns a data set
    of exactly N records, each with its Province among the three provinces
    and its Gender among the two genders. *)
Theorem generate_N_records {R : RandomState} (N : Z) (st : rng) :
  1 <= N -> N <= max_array_size ->
  (exists df,
     fst (generate_insurance_data N st) = Ok df /\
     Z.of_nat (length df) = N /\
     Forall (fun r => In (Province r) provinces /\ In (Gender r) genders) df)
  /\ N < array_size_limit
  /\ (length provinces = 3%nat /\ NoDup provinces)
  /\ (length genders = 2%nat /\ NoDup genders).
Proof.
  intros HN Hmax.
  destruct (generate_run claim_rates_province N st ltac:(lia))
    as (ps & gs & Hlp & Hlg & Hinp & Hing & Hrun).
  split; [|split].
  - eexists. split; [exact Hrun|]. split.
    + rewrite zip_rows_length;
        [ lia | congruence
        | rewrite claims_from_length; auto using uniforms_length ].
    + now apply (zip_rows_labels (fun p => In p provinces) (fun g => In g genders)).
  - destruct (generate_returned _ N st _ Hrun) as (_ & _ & Hb & _). lia.
  - split; (split; [reflexivity|]).
    + repeat constructor; simpl; intuition discriminate.
    + repeat constructor; simpl; intuition discriminate.
Qed.

Lemma generate_N_records_witness :
  1 <= 3 /\ 3 <= max_array_size (RandomState := lcg_random_state) /\
  (exists df,
     fst (generate_insurance_data (R := lcg_random_state) 3 7%Z) = Ok df /\
     Z.of_nat (length df) = 3 /\
     Forall (fun r => In (Province r) provinces /\ In (Gender r) genders) df)
  /\ 3 < array_size_limit
  /\ (length provinces = 3%nat /\ NoDup provinces)
  /\ (length genders = 2%nat /\ NoDup genders).
Proof.
  split; [lia|]. split; [vm_compute; discriminate|].
  apply (generate_N_records (R := lcg_random_state) 3 7%Z).
  - lia.
  - vm_compute. discriminate.
Defined.

(** C3. The generator is deterministic: whatever state the random source is
    in when it is called, a call with record count N returns the same data
    set (and leaves the source in the same state), because the call starts
    by seeding the source with 42. *)
Theorem generate_deterministic {R : RandomState} (N : Z) (st1 st2 : rng) :
  generate_insurance_data N st1 = generate_insurance_data N st2
  /\ fst (generate_insurance_data N (snd (generate_insurance_data N st1)))
     = fst (generate_insurance_data N st1).
Proof. split; reflexivity. Qed.

(** C6, as the claim states it, fails at a record count of zero: the call
    returns the empty data set. *)
Lemma generate_zero_records_succeeds :
  fst (generate_insurance_data (R := lcg_random_state) 0 7%Z) = Ok [].
Proof. vm_compute. reflexivity. Qed.

(** C6 (amended). The generator makes no check of its own and fails where
    [np.random.choice] refuses the record count: with OverflowError below
    -2^63, with ValueError from -2^63 up to -1, and with some error from
    2^62 on.  Every record count from 0 up to the largest array the machine
    allocates, zero included, makes it return a data set of that many
    records.  Between that size and 2^62 the outcome is that of the
    allocation: the call raises, or it returns that many records. *)
Theorem generate_error_condition {R : RandomState} (N : Z) (st : rng) :
  (N < int64_min /\ fst (generate_insurance_data N st) = Raise OverflowError)
  \/ (int64_min <= N < 0 /\
      fst (generate_insurance_data N st) = Raise ValueError)
  \/ (0 <= N <= max_array_size /\
      exists df, fst (generate_insurance_data N st) = Ok df /\
                 Z.of_nat (length df) = N)
  \/ (0 <= N /\ max_array_size < N < array_size_limit /\
      (is_ok (fst (generate_insurance_data N st)) = false \/
       exists df, fst (generate_insurance_data N st) = Ok df /\
                  Z.of_nat (length df) = N))
  \/ (array_size_limit <= N /\
      is_ok (fst (generate_insurance_data N st)) = false).
Proof.
  destruct (Z.lt_ge_cases N int64_min) as [Hlow|Hlow].
  { left. split; [assumption|]. now apply generate_below_int64. }
  destruct (Z.lt_ge_cases N 0) as [Hneg|Hpos].
  { right. left. split; [lia|]. apply generate_negative. lia. }
  destruct (Z.le_gt_cases N max_array_size) as [Hfit|Hbig].
  { right. right. left. split; [lia|].
    destruct (generate_run claim_rates_province N st ltac:(lia))
      as (ps & gs & Hlp & Hlg & _ & Hing & Hrun).
    eexists. split; [exact Hrun|].
    rewrite zip_rows_length;
      [ lia | congruence
      | rewrite claims_from_length; auto using uniforms_length ]. }
  destruct (Z.lt_ge_cases N array_size_limit) as [Hmid|Hhuge].
  { right. right. right. left. split; [lia|]. split; [lia|].
    destruct (fst (generate_insurance_data N st)) as [df|e] eqn:E;
      [right|left; reflexivity].
    exists df. split; [reflexivity|].
    now apply (generate_returned_length claim_rates_province N st). }
  right. right. right. right. split; [assumption|].
  now apply generate_too_large.
Qed.

(** ** The group comparison *)

Lemma boolean_index_filter (f : row -> bool) (data : DataFrame) :
  boolean_index (map f data) data = filter f data.
Proof.
  unfold boolean_index. induction data as [|r data IH]; simpl; [reflexivity|].
  destruct (f r); simpl; now rewrite IH.
Qed.

Lemma claims_of_gender_filter data g :
  claims_of_gender data g
  = map Claimed (filter (fun r => (Gender r =? g)%string) data).
Proof.
  unfold claims_of_gender, series_eq. rewrite map_map.
  now rewrite (boolean_index_filter (fun r => (Gender r =? g)%string)).
Qed.

Lemma gender_analysis_run data :
  gender_analysis data
  = (ttest_ind (sample_of_gender data "Male") (sample_of_gender data "Female"),
     data).
Proof.
  unfold gender_analysis, bind, getitem, getitem_mask_claimed, lift, ret.
  fold (claims_of_gender data "Male"). fold (claims_of_gender data "Female").
  fold (sample_of_gender data "Male"). fold (sample_of_gender data "Female").
  destruct (ttest_ind _ _) as [[t p]|e]; reflexivity.
Qed.

Lemma claimed_int64_dtype data :
  claimed_int64 data -> infer_dtype (map Claimed data) = int64.
Proof.
  intros H. unfold infer_dtype.
  assert (E : forallb in_int64 (map Claimed data) = true).
  { apply forallb_forall. intros z Hz. apply in_map_iff in Hz.
    destruct Hz as (r & <- & Hr). unfold claimed_int64 in H.
    rewrite Forall_forall in H. now apply H. }
  now rewrite E.
Qed.

Lemma ttest_ind_int64 data :
  claimed_int64 data ->
  ttest_ind (sample_of_gender data "Male") (sample_of_gender data "Female")
  = Ok (if (length (claims_of_gender data "Male") =? 0)%nat
           || (length (claims_of_gender data "Female") =? 0)%nat
        then (NaN, NaN)
        else (WelchT (claims_of_gender data "Male")
                     (claims_of_gender data "Female"),
              WelchPValue (claims_of_gender data "Male")
                          (claims_of_gender data "Female"))).
Proof.
  intros H. unfold ttest_ind, sample_of_gender. cbn [series_values series_dtype].
  rewrite (claimed_int64_dtype data H).
  destruct (claims_of_gender data "Male"), (claims_of_gender data "Female");
    reflexivity.
Qed.

Lemma partition_by_gender data :
  (length (filter (fun r => (Gender r =? "Male")%string) data)
   + length (filter (fun r => (Gender r =? "Female")%string) data)
   + length (filter other_gender data) = length data)%nat.
Proof.
  induction data as [|r data IH]; simpl; [reflexivity|].
  unfold other_gender at 1.
  destruct (String.eqb_spec (Gender r) "Male") as [HM|HM];
    destruct (String.eqb_spec (Gender r) "Female") as [HF|HF]; simpl;
    try lia.
  rewrite HM in HF. discriminate.
Qed.

(** C5, as the claim states it, fails on a data set with no Male record: the
    call returns NaN for both outputs and raises nothing. *)
Lemma gender_analysis_empty_sample_returns :
  fst (gender_analysis [mkRow "Province_A" "Female" 1; mkRow "Province_B" "Female" 0])
  = Ok (NaN, NaN).
Proof. reflexivity. Qed.

(** C5 (amended). On a data set whose Claimed values are 64-bit integers,
    [gender_analysis] does not fail when a sample is empty or has zero
    variance: when the Male or the Female sample of Claimed values is empty
    it returns NaN for the statistic and for the p-value, and when both are
    non-empty it returns the two values scipy's Welch test computes for
    them. *)
Theorem gender_analysis_returns (data : DataFrame) :
  claimed_int64 data ->
  let male := claims_of_gender data "Male" in
  let female := claims_of_gender data "Female" in
  fst (gender_analysis data)
  = Ok (if (length male =? 0)%nat || (length female =? 0)%nat
        then (NaN, NaN)
        else (WelchT male female, WelchPValue male female)).
Proof.
  intros H male female. rewrite gender_analysis_run. cbn [fst].
  subst male female. now apply ttest_ind_int64.
Qed.

Lemma gender_analysis_returns_witness :
  fst (gender_analysis [mkRow "Province_A" "Male" 1; mkRow "Province_B" "Male" 1;
                        mkRow "Province_A" "Female" 0;
                        mkRow "Province_C" "Female" 0])
  = Ok (WelchT [1; 1] [0; 0], WelchPValue [1; 1] [0; 0]).
Proof.
  apply (gender_analysis_returns
           [mkRow "Province_A" "Male" 1; mkRow "Province_B" "Male" 1;
            mkRow "Province_A" "Female" 0; mkRow "Province_C" "Female" 0]).
  repeat constructor.
Defined.

(** C10. The two samples of [gender_analysis] are the Claimed values of the
    records whose Gender is exactly "Male" and exactly "Female"; a record
    with any other Gender is in neither sample, so the two sample sizes sum
    to strictly less than the size of the data set; the call hands exactly
    these two samples to the test and, when the Claimed values are 64-bit
    integers, returns without an error. *)
Theorem gender_partition_excludes_others (data : DataFrame) (r : row) :
  In r data -> Gender r <> "Male"%string -> Gender r <> "Female"%string ->
  let male := claims_of_gender data "Male" in
  let female := claims_of_gender data "Female" in
  male = map Claimed (filter (fun x => (Gender x =? "Male")%string) data) /\
  female = map Claimed (filter (fun x => (Gender x =? "Female")%string) data) /\
  ~ In r (filter (fun x => (Gender x =? "Male")%string) data) /\
  ~ In r (filter (fun x => (Gender x =? "Female")%string) data) /\
  (length male + length female + length (filter other_gender data)
   = length data)%nat /\
  (length male + length female < length data)%nat /\
  fst (gender_analysis data)
  = ttest_ind (sample_of_gender data "Male") (sample_of_gender data "Female") /\
  series_values (sample_of_gender data "Male") = male /\
  series_values (sample_of_gender data "Female") = female /\
  (claimed_int64 data -> is_ok (fst (gender_analysis data)) = true).
Proof.
  intros Hin HM HF male female. subst male female.
  rewrite !claims_of_gender_filter, !length_map.
  repeat split.
  - rewrite filter_In. intros [_ H]. now apply String.eqb_eq in H.
  - rewrite filter_In. intros [_ H]. now apply String.eqb_eq in H.
  - apply partition_by_gender.
  - pose proof (partition_by_gender data) as Hsum.
    assert (Hother : In r (filter other_gender data)).
    { apply filter_In. split; [assumption|]. unfold other_gender.
      apply String.eqb_neq in HM, HF. now rewrite HM, HF. }
    destruct (filter other_gender data); [contradiction|]. simpl in Hsum. lia.
  - now rewrite gender_analysis_run.
  - unfold sample_of_gender. cbn [series_values]. apply claims_of_gender_filter.
  - unfold sample_of_gender. cbn [series_values]. apply claims_of_gender_filter.
  - intros H64. rewrite gender_analysis_run. cbn [fst].
    now rewrite (ttest_ind_int64 data H64).
Qed.

Lemma gender_partition_excludes_others_witness :
  let data := [mkRow "Province_A" "male" 1; mkRow "Province_B" "Male" 1;
               mkRow "Province_C" "Female" 0]%string in
  claims_of_gender data "Male" = [1] /\
  claims_of_gender data "Female" = [0] /\
  (length (claims_of_gender data "Male")
   + length (claims_of_gender data "Female") < length data)%nat /\
  is_ok (fst (gender_analysis data)) = true.
Proof.
  intros data.
  pose proof (gender_partition_excludes_others data
                (mkRow "Province_A" "male" 1)
                ltac:(simpl; auto) ltac:(discriminate) ltac:(discriminate))
    as H.
  simpl in H. destruct H as (_ & _ & _ & _ & _ & Hlt & _ & _ & _ & Hok).
  split; [reflexivity|]. split; [reflexivity|].
  split; [exact Hlt | apply Hok; repeat constructor].
Defined.

(** ** Sorted distinct labels *)

Section SortedUniqueFacts.
Context {A : Type} (eq_dec : forall x y : A, {x = y} + {x <> y})
        (leb : A -> A -> bool).

Lemma insert_sorted_perm x l : Permutation (x :: l) (insert_sorted leb x l).
Proof.
  induction l as [|y l IH]; simpl; [reflexivity|].
  destruct (leb x y); [reflexivity|].
  rewrite perm_swap. now apply perm_skip.
Qed.

Lemma sort_labels_perm l : Permutation l (sort_labels leb l).
Proof.
  induction l as [|x l IH]; simpl; [constructor|].
  rewrite <- insert_sorted_perm. now apply perm_skip.
Qed.

Lemma sorted_unique_In x l : In x (sorted_unique eq_dec leb l) <-> In x l.
Proof.
  unfold sorted_unique. rewrite <- (nodup_In eq_dec l x). split.
  - apply Permutation_in. symmetry. apply sort_labels_perm.
  - apply Permutation_in. apply sort_labels_perm.
Qed.

Lemma sorted_unique_NoDup l : NoDup (sorted_unique eq_dec leb l).
Proof.
  unfold sorted_unique.
  eapply Permutation_NoDup; [apply sort_labels_perm|apply NoDup_nodup].
Qed.

End SortedUniqueFacts.

(** ** Counting *)

Lemma countb_nonneg {A} (f : A -> bool) l : 0 <= countb f l.
Proof. unfold countb. lia. Qed.

Lemma countb_cons {A} (f : A -> bool) a l :
  countb f (a :: l) = (if f a then 1 else 0) + countb f l.
Proof. unfold countb. simpl. destruct (f a); simpl length; lia. Qed.

Lemma countb_ext {A} (f g : A -> bool) l :
  (forall a, f a = g a) -> countb f l = countb g l.
Proof. intros H. unfold countb. now rewrite (filter_ext f g H). Qed.

Lemma countb_map {A B} (h : A -> B) (f : B -> bool) l :
  countb f (map h l) = countb (fun a => f (h a)) l.
Proof.
  induction l as [|a l IH]; [reflexivity|].
  cbn [map]. now rewrite !countb_cons, IH.
Qed.

Lemma countb_true {A} (l : list A) : countb (fun _ => true) l = Z.of_nat (length l).
Proof.
  induction l as [|a l IH]; [reflexivity|].
  rewrite countb_cons, IH. simpl length. lia.
Qed.

Lemma countb_pos {A} (f : A -> bool) a l : In a l -> f a = true -> 0 < countb f l.
Proof.
  intros Hin Hf. unfold countb.
  assert (H : In a (filter f l)) by (apply filter_In; auto).
  destruct (filter f l); [contradiction|]. simpl length. lia.
Qed.

Lemma sumZ_map_add {K} (g h : K -> Z) keys :
  sumZ (map (fun k => g k + h k) keys) = sumZ (map g keys) + sumZ (map h keys).
Proof. induction keys as [|k keys IH]; simpl; lia. Qed.

Lemma sumZ_map_zero {K} (keys : list K) : sumZ (map (fun _ => 0) keys) = 0.
Proof. induction keys as [|k keys IH]; simpl; lia. Qed.

Lemma sumZ_nonneg l : Forall (fun n => 0 <= n) l -> 0 <= sumZ l.
Proof. induction 1; simpl; lia. Qed.

Section Partition.
Context {A K : Type} (eqb : K -> K -> bool)
        (eqb_spec : forall x y, reflect (x = y) (eqb x y))
        (key : A -> K).

Lemma indicator_absent x keys :
  ~ In x keys -> sumZ (map (fun k => if eqb x k then 1 else 0) keys) = 0.
Proof.
  induction keys as [|k keys IH]; simpl; [reflexivity|].
  intros Hx. destruct (eqb_spec x k) as [->|_]; [tauto|].
  rewrite IH; tauto.
Qed.

Lemma indicator_present x keys :
  NoDup keys -> In x keys ->
  sumZ (map (fun k => if eqb x k then 1 else 0) keys) = 1.
Proof.
  induction 1 as [|k keys Hk Hnd IH]; simpl; [tauto|].
  intros [->|Hin].
  - destruct (eqb_spec x x); [|congruence].
    now rewrite indicator_absent.
  - destruct (eqb_spec x k) as [->|_]; [contradiction|].
    now rewrite IH.
Qed.

(** Counting per key and adding up counts everything once, when the keys
    are distinct and cover the list. *)
Lemma countb_partition (f : A -> bool) keys l :
  NoDup keys ->
  (forall a, In a l -> f a = true -> In (key a) keys) ->
  sumZ (map (fun k => countb (fun a => f a && eqb (key a) k) l) keys)
  = countb f l.
Proof.
  intros Hnd. induction l as [|a l IH]; intros Hcov.
  - apply sumZ_map_zero.
  - rewrite (map_ext _ (fun k => (if f a && eqb (key a) k then 1 else 0)
                                 + countb (fun a => f a && eqb (key a) k) l))
      by (intros k; exact (countb_cons (fun x => f x && eqb (key x) k) a l)).
    rewrite sumZ_map_add, IH by (intros; apply Hcov; simpl; auto).
    rewrite countb_cons. f_equal.
    destruct (f a) eqn:Hf; simpl.
    + apply indicator_present; [assumption|]. apply Hcov; simpl; auto.
    + apply sumZ_map_zero.
Qed.

End Partition.

(** ** The contingency table *)

Lemma combine_columns (data : DataFrame) :
  combine (map Province data) (map Claimed data)
  = map (fun r => (Province r, Claimed r)) data.
Proof. induction data as [|r data IH]; simpl; congruence. Qed.

Lemma crosstab_row_sum rows cols p :
  sumZ (map (fun c =>
               countb (fun pc => (fst pc =? p)%string && (snd pc =? c))
                      (combine rows cols))
            (sorted_unique Z.eq_dec Z.leb cols))
  = countb (fun pc => (fst pc =? p)%string) (combine rows cols).
Proof.
  apply (countb_partition Z.eqb Z.eqb_spec snd
           (fun pc : string * Z => (fst pc =? p)%string)).
  - apply sorted_unique_NoDup.
  - intros [p' c'] Hin _. apply sorted_unique_In.
    now apply in_combine_r in Hin.
Qed.

Lemma crosstab_col_sum rows cols c :
  sumZ (map (fun p =>
               countb (fun pc => (fst pc =? p)%string && (snd pc =? c))
                      (combine rows cols))
            (sorted_unique string_dec String.leb rows))
  = countb (fun pc => snd pc =? c) (combine rows cols).
Proof.
  rewrite <- (countb_partition String.eqb String.eqb_spec fst
                (fun pc : string * Z => snd pc =? c)
                (sorted_unique string_dec String.leb rows)).
  - f_equal. apply map_ext. intros p. apply countb_ext.
    intros pc. apply andb_comm.
  - apply sorted_unique_NoDup.
  - intros [p' c'] Hin _. apply sorted_unique_In.
    now apply in_combine_l in Hin.
Qed.

Lemma crosstab_total rows cols :
  sumZ (map sumZ (values (crosstab rows cols)))
  = Z.of_nat (length (combine rows cols)).
Proof.
  unfold crosstab. cbn [values]. rewrite map_map.
  rewrite (map_ext _ (fun p => countb (fun pc : string * Z =>
                                         true && (fst pc =? p)%string)
                                      (combine rows cols)))
    by (intros p; rewrite crosstab_row_sum; now apply countb_ext).
  rewrite (countb_partition String.eqb String.eqb_spec fst (fun _ => true)).
  - apply countb_true.
  - apply sorted_unique_NoDup.
  - intros [p' c'] Hin _. apply sorted_unique_In.
    now apply in_combine_l in Hin.
Qed.

Lemma crosstab_nonneg rows cols :
  Forall (Forall (fun n => 0 <= n)) (values (crosstab rows cols)).
Proof.
  unfold crosstab. cbn [values].
  apply Forall_map, Forall_forall. intros p _.
  apply Forall_map, Forall_forall. intros c _.
  apply countb_nonneg.
Qed.

Lemma Forall2_map_right {X Y} (P : X -> Y -> Prop) (g : X -> Y) l :
  Forall (fun x => P x (g x)) l -> Forall2 P l (map g l).
Proof. induction 1; simpl; constructor; assumption. Qed.

Lemma preprocessing_script_run data :
  preprocessing_script data
  = (match chi2_contingency
             (values (crosstab (map Province data) (map Claimed data))) with
     | Ok (chi2, p, _, _) =>
         Ok (chi2, p, crosstab (map Province data) (map Claimed data))
     | Raise e => Raise e
     end, data).
Proof.
  unfold preprocessing_script, bind, getitem, lift, ret.
  destruct (chi2_contingency _) as [[[[chi2 p] dof] expected]|e]; reflexivity.
Qed.

(** C9. Neither test changes the data frame it is given: after
    [preprocessing_script] and after [gender_analysis] the frame is the one
    before the call, whether the call returned or raised. *)
Theorem tests_do_not_mutate (data : DataFrame) :
  snd (preprocessing_script data) = data /\
  snd (gender_analysis data) = data.
Proof.
  split.
  - now rewrite preprocessing_script_run.
  - now rewrite gender_analysis_run.
Qed.

(** ** The chi-squared test *)

Lemma map_nth_seq {X Y} (G : X -> Y) (l : list X) d :
  map (fun j => G (nth j l d)) (seq 0 (length l)) = map G l.
Proof.
  induction l as [|x l IH]; [reflexivity|].
  cbn [length seq map nth]. f_equal.
  rewrite <- seq_shift, map_map. exact IH.
Qed.

Lemma existsb_none {X} (f : X -> bool) l :
  Forall (fun x => f x = false) l -> existsb f l = false.
Proof. induction 1 as [|x l Hx _ IH]; simpl; [reflexivity|]. now rewrite Hx. Qed.

Lemma fdiv_positive a b :
  0 < a -> 0 < b -> exists q, fdiv a b = Some q /\ (0 < q)%Q.
Proof.
  intros Ha Hb. unfold fdiv.
  destruct (Z.eqb_spec b 0) as [->|_]; [lia|].
  eexists. split; [reflexivity|].
  unfold Qdiv. apply Qmult_lt_0_compat.
  - unfold Qlt. simpl. lia.
  - apply Qinv_lt_0_compat. unfold Qlt. simpl. lia.
Qed.

Section CrosstabOfFrame.
Variable data : DataFrame.
Hypothesis data_nonempty : data <> [].

Let rows := map Province data.
Let cols := map Claimed data.
Let idx := sorted_unique string_dec String.leb rows.
Let cls := sorted_unique Z.eq_dec Z.leb cols.
Let observed := values (crosstab rows cols).

Lemma index_nonempty : idx <> [].
Proof.
  destruct data as [|r d]; [contradiction|].
  assert (H : In (Province r) idx) by (apply sorted_unique_In; simpl; auto).
  intros E. rewrite E in H. contradiction.
Qed.

Lemma columns_nonempty : cls <> [].
Proof.
  destruct data as [|r d]; [contradiction|].
  assert (H : In (Claimed r) cls) by (apply sorted_unique_In; simpl; auto).
  intros E. rewrite E in H. contradiction.
Qed.

Lemma observed_shape : nrows observed = length idx /\ ncols observed = length cls.
Proof.
  pose proof index_nonempty as Hi. unfold observed, crosstab. cbn [values].
  fold idx cls. unfold nrows. rewrite length_map. split; [reflexivity|].
  destruct idx as [|p idx']; [contradiction|]. simpl. apply length_map.
Qed.

Lemma observed_row_sums :
  row_sums observed
  = map (fun p => countb (fun r => (Province r =? p)%string) data) idx.
Proof.
  unfold row_sums, observed, crosstab. cbn [values]. fold idx cls.
  rewrite map_map. apply map_ext. intros p. unfold cls.
  rewrite crosstab_row_sum. unfold rows, cols.
  rewrite combine_columns. apply countb_map.
Qed.

Lemma observed_col_sums :
  col_sums observed = map (fun c => countb (fun r => Claimed r =? c) data) cls.
Proof.
  unfold col_sums. rewrite (proj2 observed_shape).
  rewrite <- (map_nth_seq (fun c => countb (fun r => Claimed r =? c) data) cls 0).
  apply map_ext_in. intros j Hj. apply in_seq in Hj.
  unfold observed, crosstab. cbn [values]. fold idx cls. rewrite map_map.
  rewrite (map_ext _ (fun p =>
             countb (fun pc => (fst pc =? p)%string && (snd pc =? nth j cls 0))
                    (combine rows cols))).
  - unfold idx. rewrite crosstab_col_sum. unfold rows, cols.
    rewrite combine_columns. apply countb_map.
  - intros p.
    rewrite (nth_indep _ 0
               (countb (fun pc => (fst pc =? p)%string && (snd pc =? 0))
                       (combine rows cols)))
      by (rewrite length_map; lia).
    apply (map_nth (fun c =>
             countb (fun pc => (fst pc =? p)%string && (snd pc =? c))
                    (combine rows cols))).
Qed.

Lemma observed_total : total observed = Z.of_nat (length data).
Proof.
  unfold total, row_sums, observed. rewrite crosstab_total.
  unfold rows, cols. rewrite combine_columns. now rewrite length_map.
Qed.

Lemma expected_positive :
  Forall (Forall (fun e => exists q, e = Some q /\ (0 < q)%Q))
         (expected_freq observed).
Proof.
  unfold expected_freq.
  rewrite observed_row_sums, observed_col_sums, observed_total.
  apply Forall_map, Forall_map, Forall_forall. intros p Hp.
  apply Forall_map, Forall_map, Forall_forall. intros c Hc.
  apply sorted_unique_In, in_map_iff in Hp. destruct Hp as (r & <- & Hr).
  apply sorted_unique_In, in_map_iff in Hc. destruct Hc as (r' & <- & Hr').
  apply fdiv_positive.
  - apply Z.mul_pos_pos.
    + apply (countb_pos _ r); [assumption|apply String.eqb_refl].
    + apply (countb_pos _ r'); [assumption|apply Z.eqb_refl].
  - destruct data; [contradiction|]. simpl length. lia.
Qed.

Lemma chi2_contingency_returns : is_ok (chi2_contingency observed) = true.
Proof.
  unfold chi2_contingency.
  rewrite existsb_none.
  2:{ eapply Forall_impl; [|apply crosstab_nonneg].
      intros cells Hcells. apply existsb_none.
      eapply Forall_impl; [|exact Hcells].
      intros n Hn. simpl in Hn. apply Z.ltb_ge. exact Hn. }
  destruct observed_shape as [-> ->].
  pose proof index_nonempty as Hi. pose proof columns_nonempty as Hc.
  destruct (Nat.eqb_spec (length idx * length cls) 0) as [E|_].
  { destruct idx; [contradiction|]. destruct cls; [contradiction|].
    simpl in E. lia. }
  rewrite existsb_none.
  2:{ eapply Forall_impl; [|apply expected_positive].
      intros cells Hcells. apply existsb_none.
      eapply Forall_impl; [|exact Hcells].
      intros e (q & -> & Hq). simpl.
      destruct (Qeq_bool q 0) eqn:E; [|reflexivity].
      apply Qeq_bool_eq in E. rewrite E in Hq. discriminate. }
  destruct (_ =? 0); reflexivity.
Qed.

End CrosstabOfFrame.

(** C8. For every data set, the contingency table [preprocessing_script]
    builds has only non-negative cells, its cells sum to the number of
    records, and the row of each province sums to the number of records of
    that province; every province of the data has its row.  On a data set
    with at least one record the function returns this table; on the data
    set without records the table has no cells and the test raises
    ValueError. *)
Theorem contingency_table_counts (data : DataFrame) :
  let t := crosstab (map Province data) (map Claimed data) in
  Forall (Forall (fun n => 0 <= n)) (values t) /\
  sumZ (map sumZ (values t)) = Z.of_nat (length data) /\
  Forall2 (fun p cells =>
             sumZ cells = countb (fun r => (Province r =? p)%string) data)
          (index t) (values t) /\
  Forall (fun r => In (Province r) (index t)) data /\
  NoDup (index t) /\
  match data with
  | [] => fst (preprocessing_script data) = Raise ValueError
  | _ :: _ => exists chi2 p, fst (preprocessing_script data) = Ok (chi2, p, t)
  end.
Proof.
  intros t. subst t. repeat split.
  - apply crosstab_nonneg.
  - rewrite crosstab_total, combine_columns. now rewrite length_map.
  - unfold crosstab. cbn [index values].
    apply Forall2_map_right, Forall_forall. intros p _.
    rewrite crosstab_row_sum, combine_columns. apply countb_map.
  - apply Forall_forall. intros r Hr. unfold crosstab. cbn [index].
    apply sorted_unique_In. now apply in_map.
  - apply sorted_unique_NoDup.
  - destruct data as [|r d] eqn:E; [reflexivity|].
    rewrite preprocessing_script_run. cbn [fst].
    pose proof (chi2_contingency_returns (r :: d) ltac:(discriminate)) as Hok.
    destruct (chi2_contingency _) as [[[[chi2 p] dof] expected]|e];
      [|discriminate].
    now exists chi2, p.
Qed.

Lemma chi2_contingency_zero_expected observed :
  chi2_contingency observed = Raise ValueError
  \/ existsb (existsb is_zero) (expected_freq observed) = false.
Proof.
  unfold chi2_contingency.
  destruct (existsb (existsb (fun x => x <? 0)) observed); [now left|].
  destruct (_ =? _)%nat; [now left|].
  destruct (existsb (existsb is_zero) (expected_freq observed));
    [now left|now right].
Qed.

(** C4, as the claim states it, fails on a data set in which every record
    of Province_A has Claimed = 0: the test returns its statistic, its
    p-value and the table, and raises nothing. *)
Lemma chi2_all_zero_province_returns :
  fst (preprocessing_script
         [mkRow "Province_A" "Male" 0; mkRow "Province_A" "Female" 0;
          mkRow "Province_B" "Male" 0; mkRow "Province_B" "Female" 1])
  = Ok (Chi2Statistic [[2; 0]; [1; 1]], Chi2PValue [[2; 0]; [1; 1]],
        mkContingency ["Province_A"; "Province_B"]%string [0; 1]
                      [[2; 0]; [1; 1]]).
Proof. vm_compute. reflexivity. Qed.

(** C4 (amended). [chi2_contingency] raises ValueError whenever an expected
    cell frequency of its table is zero.  On the table that
    [preprocessing_script] builds this happens for no data set with at least
    one record: every expected frequency is then strictly positive and the
    test returns, also when a province has Claimed = 0 in all its records.
    The test raises ValueError on the data set without records, whose table
    has no cells. *)
Theorem chi2_raises_only_without_data (data : DataFrame) :
  match data with
  | [] => fst (preprocessing_script data) = Raise ValueError
  | _ :: _ =>
      is_ok (fst (preprocessing_script data)) = true /\
      Forall (Forall (fun e => exists q, e = Some q /\ (0 < q)%Q))
             (expected_freq
                (values (crosstab (map Province data) (map Claimed data))))
  end
  /\ forall observed,
       chi2_contingency observed = Raise ValueError
       \/ existsb (existsb is_zero) (expected_freq observed) = false.
Proof.
  split; [|apply chi2_contingency_zero_expected].
  destruct data as [|r d] eqn:E; [reflexivity|].
  assert (Hne : r :: d <> []) by discriminate.
  split; [|now apply expected_positive].
  rewrite preprocessing_script_run. cbn [fst].
  pose proof (chi2_contingency_returns (r :: d) Hne) as Hok.
  destruct (chi2_contingency _) as [[[[chi2 p] dof] expected]|e];
    [reflexivity|discriminate].
Qed.

(** * Further properties of the script *)

(** ** The order of the labels *)

Lemma string_leb_iff a b :
  String.leb a b = true <-> a = b \/ String_as_OT.lt a b.
Proof.
  unfold String.leb.
  destruct (String.compare a b) eqn:Hc; split; try discriminate; auto.
  - intros _. left. now apply String_as_OT.cmp_eq.
  - intros _. right. now apply String_as_OT.cmp_lt.
  - intros [Heq|Hlt].
    + apply String_as_OT.cmp_eq in Heq. unfold String_as_OT.cmp in Heq. congruence.
    + apply String_as_OT.cmp_lt in Hlt. unfold String_as_OT.cmp in Hlt. congruence.
Qed.

Lemma string_leb_trans a b c :
  String.leb a b = true -> String.leb b c = true -> String.leb a c = true.
Proof.
  rewrite !string_leb_iff. intros [->|Hab] [->|Hbc]; auto.
  right. eapply String_as_OT.lt_trans; eassumption.
Qed.

Lemma Z_leb_total a b : (a <=? b) = true \/ (b <=? a) = true.
Proof. rewrite !Z.leb_le. lia. Qed.

Lemma Z_leb_trans a b c : (a <=? b) = true -> (b <=? c) = true -> (a <=? c) = true.
Proof. rewrite !Z.leb_le. lia. Qed.

Lemma Z_leb_antisym a b : (a <=? b) = true -> (b <=? a) = true -> a = b.
Proof. rewrite !Z.leb_le. lia. Qed.

Section SortedLabels.
Context {A : Type} (eq_dec : forall x y : A, {x = y} + {x <> y})
        (leb : A -> A -> bool).
Hypothesis leb_total : forall a b, leb a b = true \/ leb b a = true.
Hypothesis leb_trans : forall a b c, leb a b = true -> leb b c = true -> leb a c = true.
Hypothesis leb_antisym : forall a b, leb a b = true -> leb b a = true -> a = b.

Lemma insert_sorted_In x y l : In y (insert_sorted leb x l) <-> y = x \/ In y l.
Proof.
  split.
  - intros H. apply (Permutation_in _ (Permutation_sym (insert_sorted_perm leb x l))) in H.
    destruct H; auto.
  - intros H. apply (Permutation_in _ (insert_sorted_perm leb x l)).
    destruct H; simpl; auto.
Qed.

Lemma insert_sorted_sorted x l :
  StronglySorted (fun a b => leb a b = true) l ->
  StronglySorted (fun a b => leb a b = true) (insert_sorted leb x l).
Proof.
  induction 1 as [|y l Hs IH Hy]; simpl.
  - constructor; constructor.
  - destruct (leb x y) eqn:Hxy.
    + constructor; [constructor; assumption|].
      constructor; [assumption|].
      eapply Forall_impl; [|exact Hy]. intros z Hz. simpl in Hz.
      now apply (leb_trans x y z).
    + constructor; [assumption|].
      apply Forall_forall. intros z Hz. apply insert_sorted_In in Hz.
      destruct Hz as [->|Hz].
      * destruct (leb_total x y) as [H|H]; [congruence|assumption].
      * rewrite Forall_forall in Hy. now apply Hy.
Qed.

Lemma sort_labels_sorted l :
  StronglySorted (fun a b => leb a b = true) (sort_labels leb l).
Proof.
  induction l as [|x l IH]; simpl; [constructor|].
  now apply insert_sorted_sorted.
Qed.

(** Two ascending lists without repeats that hold the same elements are the
    same list. *)
Lemma sorted_same_elements l1 l2 :
  StronglySorted (fun a b => leb a b = true) l1 ->
  StronglySorted (fun a b => leb a b = true) l2 ->
  NoDup l1 -> NoDup l2 ->
  (forall x, In x l1 <-> In x l2) -> l1 = l2.
Proof.
  intros Hs1. revert l2.
  induction Hs1 as [|h1 t1 Hs1 IH Hh1]; intros l2 Hs2 Hn1 Hn2 Hsame.
  - destruct l2 as [|h2 t2]; [reflexivity|].
    exfalso. apply (Hsame h2). simpl. auto.
  - destruct l2 as [|h2 t2].
    { exfalso. apply (Hsame h1). simpl. auto. }
    inversion Hs2 as [|? ? Hs2' Hh2]; subst.
    inversion Hn1 as [|? ? Hnot1 Hn1']; subst.
    inversion Hn2 as [|? ? Hnot2 Hn2']; subst.
    rewrite Forall_forall in Hh1, Hh2.
    assert (Heq : h1 = h2).
    { assert (H12 : In h1 (h2 :: t2)) by (apply Hsame; simpl; auto).
      assert (H21 : In h2 (h1 :: t1)) by (apply Hsame; simpl; auto).
      destruct H12 as [E|H12]; [now symmetry|].
      destruct H21 as [E|H21]; [assumption|].
      apply leb_antisym; [now apply Hh1|now apply Hh2]. }
    subst h2. f_equal. apply IH; try assumption.
    intros x. split; intros Hx.
    + assert (H : In x (h1 :: t2)) by (apply Hsame; simpl; auto).
      destruct H as [<-|H]; [contradiction|assumption].
    + assert (H : In x (h1 :: t1)) by (apply Hsame; simpl; auto).
      destruct H as [<-|H]; [contradiction|assumption].
Qed.

Lemma sorted_unique_sorted l :
  StronglySorted (fun a b => leb a b = true) (sorted_unique eq_dec leb l).
Proof. apply sort_labels_sorted. Qed.

Lemma sorted_unique_same_elements l l' :
  (forall x, In x l <-> In x l') ->
  sorted_unique eq_dec leb l = sorted_unique eq_dec leb l'.
Proof.
  intros Hsame. apply sorted_same_elements.
  - apply sorted_unique_sorted.
  - apply sorted_unique_sorted.
  - apply sorted_unique_NoDup.
  - apply sorted_unique_NoDup.
  - intros x. rewrite !sorted_unique_In. apply Hsame.
Qed.

End SortedLabels.

(** ** The shape of the contingency table *)

(** X6. The contingency table built from a data set is rectangular: one row
    of cells per index label and one cell per column label.  The index holds
    exactly the provinces that occur in the data and the columns exactly the
    Claimed values that occur, each once and in ascending order. *)
Theorem crosstab_labels_sorted (data : DataFrame) :
  let t := crosstab (map Province data) (map Claimed data) in
  length (values t) = length (index t) /\
  Forall (fun cells => length cells = length (columns t)) (values t) /\
  StronglySorted (fun a b => (a <=? b)%string = true) (index t) /\
  StronglySorted (fun a b => (a <=? b) = true) (columns t) /\
  NoDup (index t) /\ NoDup (columns t) /\
  (forall p, In p (index t) <-> In p (map Province data)) /\
  (forall c, In c (columns t) <-> In c (map Claimed data)).
Proof.
  intros t. subst t. unfold crosstab. cbn [index columns values].
  split; [apply length_map|].
  split; [apply Forall_map, Forall_forall; intros p _; apply length_map|].
  split; [apply sorted_unique_sorted;
          [apply String.leb_total|apply string_leb_trans]|].
  split; [apply sorted_unique_sorted; [apply Z_leb_total|apply Z_leb_trans]|].
  split; [apply sorted_unique_NoDup|].
  split; [apply sorted_unique_NoDup|].
  split; intros x; apply sorted_unique_In.
Qed.

(** X5. Each column of the contingency table sums to the number of records
    with that Claimed value, and every Claimed value of the data has its
    column. *)
Theorem contingency_column_sums (data : DataFrame) :
  let t := crosstab (map Province data) (map Claimed data) in
  col_sums (values t)
  = map (fun c => countb (fun r => Claimed r =? c) data) (columns t)
  /\ Forall (fun r => In (Claimed r) (columns t)) data.
Proof.
  intros t. subst t. split.
  - destruct data as [|r d] eqn:E; [reflexivity|].
    apply (observed_col_sums (r :: d)). discriminate.
  - apply Forall_forall. intros r Hr. unfold crosstab. cbn [columns].
    apply sorted_unique_In. now apply in_map.
Qed.

(** ** The order of the records *)

Lemma countb_permutation {A} (f : A -> bool) l l' :
  Permutation l l' -> countb f l = countb f l'.
Proof.
  induction 1 as [|x l l' _ IH|x y l|l l' l'' _ IH1 _ IH2].
  - reflexivity.
  - now rewrite !countb_cons, IH.
  - rewrite !countb_cons. lia.
  - congruence.
Qed.

Lemma crosstab_permutation (data data' : DataFrame) :
  Permutation data data' ->
  crosstab (map Province data) (map Claimed data)
  = crosstab (map Province data') (map Claimed data').
Proof.
  intros Hp. unfold crosstab.
  assert (Hidx : sorted_unique string_dec String.leb (map Province data)
                 = sorted_unique string_dec String.leb (map Province data')).
  { apply sorted_unique_same_elements.
    - apply String.leb_total.
    - apply string_leb_trans.
    - apply String.leb_antisym.
    - intros x. split; apply Permutation_in; apply Permutation_map;
        [assumption|now symmetry]. }
  assert (Hcls : sorted_unique Z.eq_dec Z.leb (map Claimed data)
                 = sorted_unique Z.eq_dec Z.leb (map Claimed data')).
  { apply sorted_unique_same_elements.
    - apply Z_leb_total.
    - apply Z_leb_trans.
    - apply Z_leb_antisym.
    - intros x. split; apply Permutation_in; apply Permutation_map;
        [assumption|now symmetry]. }
  rewrite Hidx, Hcls. f_equal.
  apply map_ext. intros p. apply map_ext. intros c.
  rewrite !combine_columns. apply countb_permutation.
  now apply Permutation_map.
Qed.

(** X9. The chi-squared test does not depend on the order of the records:
    on two data sets that hold the same records in different orders it
    builds the same contingency table and gives the same outcome. *)
Theorem chi2_record_order (data data' : DataFrame) :
  Permutation data data' ->
  crosstab (map Province data) (map Claimed data)
  = crosstab (map Province data') (map Claimed data')
  /\ fst (preprocessing_script data) = fst (preprocessing_script data').
Proof.
  intros Hp. pose proof (crosstab_permutation data data' Hp) as Ht.
  split; [exact Ht|].
  rewrite !preprocessing_script_run. cbn [fst]. now rewrite Ht.
Qed.

Lemma chi2_record_order_witness :
  let data := [mkRow "Province_B" "Male" 1; mkRow "Province_A" "Female" 0;
               mkRow "Province_A" "Male" 1]%string in
  let data' := [mkRow "Province_A" "Male" 1; mkRow "Province_B" "Male" 1;
                mkRow "Province_A" "Female" 0]%string in
  Permutation data data' /\
  fst (preprocessing_script data) = fst (preprocessing_script data').
Proof.
  intros data data'.
  assert (Hp : Permutation data data').
  { unfold data, data'. symmetry.
    apply (Permutation_cons_append
             [mkRow "Province_B" "Male" 1; mkRow "Province_A" "Female" 0]). }
  split; [exact Hp|].
  exact (proj2 (chi2_record_order data data' Hp)).
Defined.

(** ** The degenerate table *)

Lemma nodup_constant {A} (c0 : A) l :
  NoDup l -> l <> [] -> Forall (fun x => x = c0) l -> l = [c0].
Proof.
  intros Hnd Hne Hall. destruct l as [|x t]; [congruence|].
  inversion Hall as [|? ? Hx Ht]; subst.
  destruct t as [|y t']; [reflexivity|].
  inversion Ht as [|? ? Hy _]; subst.
  inversion Hnd as [|? ? Hnot _]; subst.
  exfalso. apply Hnot. simpl. auto.
Qed.

Lemma chi2_contingency_of_frame (data : DataFrame) :
  data <> [] ->
  let observed := values (crosstab (map Province data) (map Claimed data)) in
  let dof := Z.of_nat (nrows observed * ncols observed)
             - Z.of_nat (nrows observed + ncols observed) + 2 - 1 in
  chi2_contingency observed
  = Ok (if dof =? 0
        then (Float 0, Float 1, dof, expected_freq observed)
        else (Chi2Statistic observed, Chi2PValue observed, dof,
              expected_freq observed)).
Proof.
  intros Hne observed dof.
  pose proof (chi2_contingency_returns data Hne) as Hok.
  fold observed in Hok. revert Hok. unfold chi2_contingency. fold dof.
  destruct (existsb (existsb (fun x => x <? 0)) observed); [discriminate|].
  destruct (nrows observed * ncols observed =? 0)%nat; [discriminate|].
  destruct (existsb (existsb is_zero) (expected_freq observed)); [discriminate|].
  intros _. destruct (dof =? 0); reflexivity.
Qed.

(** X7. When all records of a non-empty data set have the same Claimed
    value, or all have the same Province, the contingency table has a single
    column or a single row, and the chi-squared test returns the statistic
    0.0 and the p-value 1.0 without raising. *)
Theorem chi2_single_category (data : DataFrame) (c0 : Z) (p0 : string) :
  data <> [] ->
  Forall (fun r => Claimed r = c0) data \/ Forall (fun r => Province r = p0) data ->
  fst (preprocessing_script data)
  = Ok (Float 0, Float 1, crosstab (map Province data) (map Claimed data))
  /\ (columns (crosstab (map Province data) (map Claimed data)) = [c0]
      \/ index (crosstab (map Province data) (map Claimed data)) = [p0]).
Proof.
  intros Hne Hall.
  pose proof (observed_shape data Hne) as [Hr Hc].
  assert (Hlab : sorted_unique Z.eq_dec Z.leb (map Claimed data) = [c0]
                 \/ sorted_unique string_dec String.leb (map Province data) = [p0]).
  { destruct Hall as [Hall|Hall]; [left|right]; apply nodup_constant.
    - apply sorted_unique_NoDup.
    - now apply columns_nonempty.
    - apply Forall_forall. intros x Hx.
      apply sorted_unique_In, in_map_iff in Hx. destruct Hx as (r & <- & Hr').
      rewrite Forall_forall in Hall. now apply Hall.
    - apply sorted_unique_NoDup.
    - now apply index_nonempty.
    - apply Forall_forall. intros x Hx.
      apply sorted_unique_In, in_map_iff in Hx. destruct Hx as (r & <- & Hr').
      rewrite Forall_forall in Hall. now apply Hall. }
  split; [|exact Hlab].
  rewrite preprocessing_script_run. cbn [fst].
  rewrite (chi2_contingency_of_frame data Hne). rewrite Hr, Hc.
  assert (Hdof : Z.of_nat (length (sorted_unique string_dec String.leb (map Province data))
                           * length (sorted_unique Z.eq_dec Z.leb (map Claimed data)))
                 - Z.of_nat (length (sorted_unique string_dec String.leb (map Province data))
                             + length (sorted_unique Z.eq_dec Z.leb (map Claimed data)))
                 + 2 - 1 = 0).
  { destruct Hlab as [-> | ->]; simpl length; lia. }
  rewrite Hdof. reflexivity.
Qed.

Lemma chi2_single_category_witness :
  fst (preprocessing_script
         [mkRow "Province_A" "Male" 0; mkRow "Province_B" "Female" 0;
          mkRow "Province_B" "Male" 0])
  = Ok (Float 0, Float 1,
        mkContingency ["Province_A"; "Province_B"]%string [0] [[1]; [2]]).
Proof.
  exact (proj1 (chi2_single_category
                  [mkRow "Province_A" "Male" 0; mkRow "Province_B" "Female" 0;
                   mkRow "Province_B" "Male" 0] 0 "Province_A"
                  ltac:(discriminate)
                  ltac:(left; repeat constructor))).
Defined.

(** ** The columns each test reads *)

Lemma claims_of_gender_columns (data data' : DataFrame) g :
  map Gender data = map Gender data' ->
  map Claimed data = map Claimed data' ->
  claims_of_gender data g = claims_of_gender data' g.
Proof.
  rewrite !claims_of_gender_filter. revert data'.
  induction data as [|r d IH]; intros [|r' d']; simpl; try discriminate;
    [reflexivity|].
  intros Hg Hc. injection Hg as Hg0 Hg. injection Hc as Hc0 Hc.
  rewrite Hg0. destruct (Gender r' =? g)%string; simpl;
    rewrite (IH d' Hg Hc); congruence.
Qed.

Lemma sample_of_gender_columns (data data' : DataFrame) g :
  map Gender data = map Gender data' ->
  map Claimed data = map Claimed data' ->
  sample_of_gender data g = sample_of_gender data' g.
Proof.
  intros Hg Hc. unfold sample_of_gender.
  now rewrite Hc, (claims_of_gender_columns data data' g Hg Hc).
Qed.

(** X8. The chi-squared test reads only the Province and Claimed columns and
    the group comparison only the Gender and Claimed columns: rewriting the
    Gender of every record in any way leaves the outcome of
    [preprocessing_script] unchanged, and rewriting the Province of every
    record leaves the outcome of [gender_analysis] unchanged. *)
Theorem tests_ignore_unused_column (data : DataFrame) (relabel : row -> string) :
  fst (preprocessing_script
         (map (fun r => mkRow (Province r) (relabel r) (Claimed r)) data))
  = fst (preprocessing_script data)
  /\ fst (gender_analysis
            (map (fun r => mkRow (relabel r) (Gender r) (Claimed r)) data))
     = fst (gender_analysis data).
Proof.
  split.
  - rewrite !preprocessing_script_run. cbn [fst].
    now rewrite !map_map.
  - rewrite !gender_analysis_run. cbn [fst].
    rewrite !(sample_of_gender_columns
                (map (fun r => mkRow (relabel r) (Gender r) (Claimed r)) data)
                data);
      try reflexivity; now rewrite map_map.
Qed.

(** ** The partition by gender *)

Lemma no_other_gender (data : DataFrame) :
  Forall (fun r => Gender r = "Male"%string \/ Gender r = "Female"%string) data ->
  filter other_gender data = [].
Proof.
  induction 1 as [|r d Hr _ IH]; [reflexivity|].
  simpl. unfold other_gender at 1.
  destruct Hr as [-> | ->]; simpl; exact IH.
Qed.

Lemma gender_samples_permutation (data : DataFrame) :
  Forall (fun r => Gender r = "Male"%string \/ Gender r = "Female"%string) data ->
  Permutation
    (map Claimed (filter (fun r => (Gender r =? "Male")%string) data)
     ++ map Claimed (filter (fun r => (Gender r =? "Female")%string) data))
    (map Claimed data).
Proof.
  induction 1 as [|r d Hr _ IH]; [constructor|].
  simpl. destruct Hr as [-> | ->]; simpl.
  - now apply perm_skip.
  - rewrite <- Permutation_middle. now apply perm_skip.
Qed.

(** X3. When every record has Gender "Male" or "Female", the two samples of
    [gender_analysis] split the Claimed column: together they hold every
    Claimed value of the data exactly once, so their sizes sum to the size of
    the data set. *)
Theorem gender_partition_exhaustive (data : DataFrame) :
  Forall (fun r => Gender r = "Male"%string \/ Gender r = "Female"%string) data ->
  Permutation (claims_of_gender data "Male" ++ claims_of_gender data "Female")
              (map Claimed data)
  /\ (length (claims_of_gender data "Male")
      + length (claims_of_gender data "Female") = length data)%nat.
Proof.
  intros Hall. rewrite !claims_of_gender_filter.
  pose proof (gender_samples_permutation data Hall) as Hp.
  split; [exact Hp|].
  apply Permutation_length in Hp.
  rewrite length_app, !length_map in Hp. now rewrite !length_map.
Qed.

Lemma gender_partition_exhaustive_witness :
  let data := [mkRow "Province_A" "Female" 0; mkRow "Province_B" "Male" 1;
               mkRow "Province_C" "Female" 1]%string in
  Permutation (claims_of_gender data "Male" ++ claims_of_gender data "Female")
              (map Claimed data)
  /\ (length (claims_of_gender data "Male")
      + length (claims_of_gender data "Female") = length data)%nat.
Proof.
  intros data.
  apply (gender_partition_exhaustive data).
  unfold data.
  constructor; [right; reflexivity|].
  constructor; [left; reflexivity|].
  constructor; [right; reflexivity|].
  constructor.
Defined.

(** ** The tests on generated data *)

Lemma zip_rows_fields (P G : string -> Prop) (C : Z -> Prop) ps gs cs :
  Forall P ps -> Forall G gs -> Forall C cs ->
  Forall (fun r => P (Province r) /\ G (Gender r) /\ C (Claimed r))
         (zip_rows ps gs cs).
Proof.
  intros Hp. revert gs cs. induction Hp as [|p ps Hp0 Hp IH]; intros gs cs Hg Hc.
  - constructor.
  - destruct Hg as [|g gs Hg0 Hg]; [constructor|].
    destruct Hc as [|c cs Hc0 Hc]; simpl; [constructor|].
    constructor; [auto|]. now apply IH.
Qed.

Lemma claims_from_binary gs us :
  Forall (fun c => c = 0 \/ c = 1) (claims_from gs us).
Proof.
  revert us. induction gs as [|g gs IH]; intros [|u us];
    cbn [claims_from]; try constructor.
  destruct (dict_getitem claim_rates_gender g) as [rate|e]; constructor.
  - destruct (Qltb u rate); auto.
  - apply IH.
Qed.

Lemma generated_frame {R : RandomState} (N : Z) (st : rng) (df : DataFrame) :
  fst (generate_insurance_data N st) = Ok df ->
  Z.of_nat (length df) = N /\
  Forall (fun r => In (Province r) provinces /\
                   In (Gender r) genders /\
                   (Claimed r = 0 \/ Claimed r = 1)) df.
Proof.
  intros Hdf. unfold generate_insurance_data in Hdf.
  destruct (generate_returned _ N st df Hdf)
    as (ps & gs & HN & Hlp & Hlg & Hinp & Hing & ->).
  split.
  - rewrite zip_rows_length;
      [ lia | congruence
      | rewrite claims_from_length; auto using uniforms_length ].
  - apply (zip_rows_fields (fun p => In p provinces) (fun g => In g genders)
             (fun c => c = 0 \/ c = 1)); auto using claims_from_binary.
Qed.

(** X1. Every record of a data set the generator returns has Claimed equal
    to 0 or to 1. *)
Theorem generated_claimed_binary {R : RandomState} (N : Z) (st : rng) (df : DataFrame) :
  fst (generate_insurance_data N st) = Ok df ->
  Forall (fun r => Claimed r = 0 \/ Claimed r = 1) df.
Proof.
  intros Hdf.
  destruct (generated_frame N st df Hdf) as (_ & Hall).
  eapply Forall_impl; [|exact Hall]. intros r (_ & _ & H). exact H.
Qed.

Lemma generated_claimed_binary_witness :
  Forall (fun r => Claimed r = 0 \/ Claimed r = 1)
         [mkRow "Province_A" "Male" 1; mkRow "Province_C" "Female" 0;
          mkRow "Province_C" "Male" 0]%string.
Proof.
  apply (generated_claimed_binary (R := lcg_random_state) 3 0).
  vm_compute. reflexivity.
Defined.

(** X2. On every data set the generator returns for a record count N >= 1,
    the chi-squared test returns without raising; its contingency table has
    at most three rows, labelled by provinces of the generator, at most two
    columns, labelled 0 or 1, and cells that sum to N. *)
Theorem chi2_on_generated_data {R : RandomState} (N : Z) (st : rng) (df : DataFrame) :
  1 <= N ->
  fst (generate_insurance_data N st) = Ok df ->
  exists chi2 p t,
    fst (preprocessing_script df) = Ok (chi2, p, t) /\
    incl (index t) provinces /\ (length (index t) <= 3)%nat /\
    incl (columns t) [0; 1] /\ (length (columns t) <= 2)%nat /\
    sumZ (map sumZ (values t)) = N.
Proof.
  intros HN Hrun.
  destruct (generated_frame N st df Hrun) as (Hlen & Hall).
  assert (Hne : df <> []) by (intros ->; simpl in Hlen; lia).
  pose proof (chi2_contingency_returns df Hne) as Hok.
  rewrite Forall_forall in Hall.
  assert (Hidx : incl (index (crosstab (map Province df) (map Claimed df)))
                      provinces).
  { intros x Hx. unfold crosstab in Hx. cbn [index] in Hx.
    apply sorted_unique_In, in_map_iff in Hx. destruct Hx as (r & <- & Hr).
    now apply Hall. }
  assert (Hcls : incl (columns (crosstab (map Province df) (map Claimed df)))
                      [0; 1]).
  { intros x Hx. unfold crosstab in Hx. cbn [columns] in Hx.
    apply sorted_unique_In, in_map_iff in Hx. destruct Hx as (r & <- & Hr).
    destruct (Hall r Hr) as (_ & _ & [-> | ->]); simpl; auto. }
  destruct (chi2_contingency
              (values (crosstab (map Province df) (map Claimed df))))
    as [[[[chi2 p] dof] expected]|e] eqn:Hchi; [|discriminate].
  exists chi2, p, (crosstab (map Province df) (map Claimed df)).
  split; [rewrite preprocessing_script_run; cbn [fst]; now rewrite Hchi|].
  split; [exact Hidx|].
  split; [apply (NoDup_incl_length (sorted_unique_NoDup _ _ _) Hidx)|].
  split; [exact Hcls|].
  split; [apply (NoDup_incl_length (sorted_unique_NoDup _ _ _) Hcls)|].
  rewrite crosstab_total, combine_columns, length_map. exact Hlen.
Qed.

Lemma chi2_on_generated_data_witness :
  let df := [mkRow "Province_A" "Male" 1; mkRow "Province_C" "Female" 0;
             mkRow "Province_C" "Male" 0]%string in
  fst (generate_insurance_data (R := lcg_random_state) 3 0%Z) = Ok df /\
  exists chi2 p t,
    fst (preprocessing_script df) = Ok (chi2, p, t) /\
    incl (index t) provinces /\ (length (index t) <= 3)%nat /\
    incl (columns t) [0; 1] /\ (length (columns t) <= 2)%nat /\
    sumZ (map sumZ (values t)) = 3.
Proof.
  intros df.
  assert (Hrun : fst (generate_insurance_data (R := lcg_random_state) 3 0%Z)
                 = Ok df) by (vm_compute; reflexivity).
  split; [exact Hrun|].
  apply (chi2_on_generated_data (R := lcg_random_state) 3 0%Z df);
    [lia|exact Hrun].
Defined.

(** X4. On every data set the generator returns for a record count N >= 1,
    the group comparison excludes no record: the sizes of the Male and the
    Female sample sum to N, and the call returns without raising. *)
Theorem gender_analysis_on_generated_data {R : RandomState} (N : Z) (st : rng)
    (df : DataFrame) :
  1 <= N ->
  fst (generate_insurance_data N st) = Ok df ->
  Z.of_nat (length (claims_of_gender df "Male")
            + length (claims_of_gender df "Female")) = N /\
  fst (gender_analysis df)
  = ttest_ind (sample_of_gender df "Male") (sample_of_gender df "Female") /\
  is_ok (fst (gender_analysis df)) = true.
Proof.
  intros HN Hrun.
  destruct (generated_frame N st df Hrun) as (Hlen & Hall).
  assert (Hg : Forall (fun r => Gender r = "Male"%string \/
                                Gender r = "Female"%string) df).
  { eapply Forall_impl; [|exact Hall].
    intros r (_ & [H|[H|[]]] & _); auto. }
  assert (H64 : claimed_int64 df).
  { eapply Forall_impl; [|exact Hall].
    intros r (_ & _ & [-> | ->]); reflexivity. }
  split.
  - pose proof (partition_by_gender df) as Hsum.
    rewrite (no_other_gender df Hg) in Hsum. simpl in Hsum.
    rewrite !claims_of_gender_filter, !length_map. lia.
  - rewrite gender_analysis_run. cbn [fst]. split; [reflexivity|].
    now rewrite (ttest_ind_int64 df H64).
Qed.

Lemma gender_analysis_on_generated_data_witness :
  let df := [mkRow "Province_A" "Male" 1; mkRow "Province_C" "Female" 0;
             mkRow "Province_C" "Male" 0]%string in
  fst (generate_insurance_data (R := lcg_random_state) 3 0%Z) = Ok df /\
  Z.of_nat (length (claims_of_gender df "Male")
            + length (claims_of_gender df "Female")) = 3 /\
  is_ok (fst (gender_analysis df)) = true.
Proof.
  intros df.
  assert (Hrun : fst (generate_insurance_data (R := lcg_random_state) 3 0%Z)
                 = Ok df) by (vm_compute; reflexivity).
  split; [exact Hrun|].
  destruct (gender_analysis_on_generated_data (R := lcg_random_state) 3 0%Z df
              ltac:(lia) Hrun) as (Hsum & _ & Hok).
  split; [exact Hsum|exact Hok].
Defined.
